(** * openai_generate_vector.py: the embedding requester

    A shallow embedding of [src/ai_and_data/openai_generate_vector.py].
    The script is a straight line of effectful statements: four attribute
    assignments on the [openai] module, one call of
    [openai.embeddings.create], one subscript [response.data[0]], one
    attribute read [.embedding] and one [print].

    The statements are written in a small state-and-exception monad over a
    [World] that holds the attributes of the [openai] module and the log of
    the effects performed so far.  The client library and the service
    behind it are not part of the repository: to the script they are an
    arbitrary function [Remote] from the number of earlier invocations and
    the request to the outcome of one invocation of
    [openai.embeddings.create] (a response, or a raised exception).  What
    the client does inside one invocation, its retry loop, is modelled
    apart, in [client].  Python's [repr] on floats belongs to the
    interpreter and is a parameter [repr_float]. *)

From Stdlib Require Import ZArith String Ascii DecimalString.
From stdpp Require Import base gmap strings list.

Local Open Scope Z_scope.

(** ** Python runtime fragment *)

(** Exceptions that can reach the top level of the script: the built-in
    [IndexError] of list subscripting and whatever the client raises. *)
Inductive exn : Type :=
  | IndexError
  | AuthenticationError
  | APIConnectionError
  | APITimeoutError
  | NotFoundError
  | RateLimitError
  | InternalServerError
  | OtherError (msg : string).

(** The outbound request as the client sees it: the attributes of the
    [openai] module at the time of the call and the two keyword arguments. *)
Record Request : Type := mkRequest {
  req_attrs : gmap string string;
  req_input : list string;
  req_model : string
}.

(** Effects of the statements of the script, in execution order.  [ECall]
    is one invocation of [openai.embeddings.create], not one request on
    the wire: see [outbound_requests]. *)
Inductive event : Type :=
  | ESetAttr (name value : string)
  | ECall (req : Request)
  | EPrint (s : string).

Record World : Type := mkWorld {
  attrs : gmap string string;
  trace : list event
}.

Inductive Result (A : Type) : Type :=
  | Ok (a : A)
  | Raise (e : exn).
Arguments Ok {A} a.
Arguments Raise {A} e.

Definition M (A : Type) : Type := World → Result A * World.

#[global] Instance M_ret : MRet M := λ A a w, (Ok a, w).

#[global] Instance M_bind : MBind M := λ A B f m w,
  match m w with
  | (Ok a, w') => f a w'
  | (Raise e, w') => (Raise e, w')
  end.

Definition raise {A : Type} (e : exn) : M A := λ w, (Raise e, w).

Definition emit (ev : event) : M unit :=
  λ w, (Ok (), mkWorld (attrs w) (trace w ++ [ev])).

(** [openai.<name> = <value>] *)
Definition setattr (name value : string) : M unit :=
  λ w, (Ok (), mkWorld (<[name:=value]> (attrs w)) (trace w ++ [ESetAttr name value])).

Definition newline : string := String (ascii_of_nat 10) EmptyString.

(** [print(x)], with [s] the text [str(x)]: on standard output it is [s]
    followed by a line end (see [stdout]). *)
Definition print (s : string) : M unit := emit (EPrint s).

(** [l[i]] on a Python list, negative indices counting from the end. *)
Definition getitem {A : Type} (l : list A) (i : Z) : M A :=
  let n := Z.of_nat (length l) in
  let j := if i <? 0 then i + n else i in
  if (0 <=? j) && (j <? n) then
    match l !! Z.to_nat j with
    | Some x => mret x
    | None => raise IndexError
    end
  else raise IndexError.

(** ** Observations on a world *)

Definition calls (w : World) : list Request :=
  omap (λ ev, match ev with ECall r => Some r | _ => None end) (trace w).

Definition writes (w : World) : list (string * string) :=
  omap (λ ev, match ev with ESetAttr k v => Some (k, v) | _ => None end) (trace w).

Definition is_io (ev : event) : bool :=
  match ev with ESetAttr _ _ => false | _ => true end.

(** The effects visible outside the process. *)
Definition io (w : World) : list event := List.filter is_io (trace w).

(** The texts handed to [print], in order. *)
Definition printed (w : World) : list string :=
  omap (λ ev, match ev with EPrint s => Some s | _ => None end) (trace w).

(** The contents of standard output: every printed text ends its line. *)
Definition stdout (w : World) : string :=
  String.concat "" (map (λ s, s +:+ newline) (printed w)).

(** An uncaught exception ends the interpreter with status 1. *)
Definition exit_status {A : Type} (r : Result A) : Z :=
  match r with Ok _ => 0 | Raise _ => 1 end.

Fixpoint count_newlines (s : string) : nat :=
  match s with
  | EmptyString => 0%nat
  | String c s' =>
      ((if Ascii.eqb c (ascii_of_nat 10) then 1 else 0) + count_newlines s')%nat
  end.

(** ** The literals of the script

    The four values the source marks or uses as placeholders.  [api_type]
    and [api_version] are written into the statements below. *)
Record Literals : Type := mkLiterals {
  api_key : string;
  azure_endpoint : string;
  text : string;
  model : string
}.

Definition source_literals : Literals :=
  {| api_key := "YOUR_API_KEY";
     azure_endpoint := "https://YOUR_AZURE_OPENAI_ENDPOINT/";
     text := "Mountains are beautiful in the fall.";
     model := "ada-embedding-deployment" |}.

Definition set_model (m : string) (L : Literals) : Literals :=
  {| api_key := api_key L; azure_endpoint := azure_endpoint L;
     text := text L; model := m |}.

Definition set_text (t : string) (L : Literals) : Literals :=
  {| api_key := api_key L; azure_endpoint := azure_endpoint L;
     text := t; model := model L |}.

(** Lines 4-7. *)
Definition configure (L : Literals) : M unit :=
  setattr "api_type" "azure" ;;
  setattr "api_key" (api_key L) ;;
  setattr "azure_endpoint" (azure_endpoint L) ;;
  setattr "api_version" "2023-05-15".

Section Script.
Context {float : Type}.
Variable repr_float : float → string.

(** The response object of the client: [response.data] is a list of
    entries, each with an [embedding] attribute. *)
Record Embedding : Type := mkEmbedding { embedding : list float }.
Record CreateEmbeddingResponse : Type := mkResponse { data : list Embedding }.

Inductive Outcome : Type :=
  | Returns (r : CreateEmbeddingResponse)
  | Raises (e : exn).

(** The client and the service as the script sees them: the number of
    earlier invocations of [create] and the request, to the outcome of the
    invocation. *)
Definition Remote : Type := nat → Request → Outcome.

(** [str] of a list of floats. *)
Definition str_list (l : list float) : string :=
  "[" +:+ String.concat ", " (map repr_float l) +:+ "]".

(** [openai.embeddings.create(input=..., model=...)] *)
Definition embeddings_create (remote : Remote)
    (input : list string) (model : string) : M CreateEmbeddingResponse :=
  λ w,
    let req := mkRequest (attrs w) input model in
    let w' := mkWorld (attrs w) (trace w ++ [ECall req]) in
    match remote (length (calls w)) req with
    | Returns r => (Ok r, w')
    | Raises e => (Raise e, w')
    end.

(** Lines 9-13. *)
Definition request (remote : Remote) (L : Literals) : M CreateEmbeddingResponse :=
  let text := text L in
  embeddings_create remote [text] (model L).

(** Line 14. *)
Definition extract (response : CreateEmbeddingResponse) : M (list float) :=
  entry ← getitem (data response) 0;
  mret (embedding entry).

(** The whole module, lines 4-15. *)
Definition script (remote : Remote) (L : Literals) : M unit :=
  configure L ;;
  response ← request remote L;
  embedding ← extract response;
  print (str_list embedding).

Definition main (remote : Remote) : M unit := script remote source_literals.

(** A process starts with an empty effect log; [att] is the state of the
    [openai] module right after the import. *)
Definition start (att : gmap string string) : World := mkWorld att [].

Definition run (remote : Remote) (L : Literals) (att : gmap string string)
    : Result unit * World :=
  script remote L (start att).

(** The module attributes once lines 4-7 have run. *)
Definition configured (L : Literals) (att : gmap string string) : gmap string string :=
  <["api_version":="2023-05-15"]>
    (<["azure_endpoint":=azure_endpoint L]>
      (<["api_key":=api_key L]>
        (<["api_type":="azure"]> att))).

Definition config_writes (L : Literals) : list event :=
  [ESetAttr "api_type" "azure";
   ESetAttr "api_key" (api_key L);
   ESetAttr "azure_endpoint" (azure_endpoint L);
   ESetAttr "api_version" "2023-05-15"].

(** The one request of a run. *)
Definition the_request (L : Literals) (att : gmap string string) : Request :=
  mkRequest (configured L att) [text L] (model L).

(** How a run can fail: the call raises, or it returns an empty list. *)
Inductive fails_with : Outcome → exn → Prop :=
  | call_raises e : fails_with (Raises e) e
  | empty_data r : data r = [] → fails_with (Returns r) IndexError.

(** What the script reads of an outcome. *)
Definition view (o : Outcome) : exn + option (list float) :=
  match o with
  | Raises e => inl e
  | Returns r => inr (embedding <$> head (data r))
  end.

End Script.

Arguments Embedding : clear implicits.
Arguments CreateEmbeddingResponse : clear implicits.
Arguments Outcome : clear implicits.
Arguments Remote : clear implicits.

(** ** Inside one invocation: the retry loop of the client

    The client library is not in the repository.  This models, from the
    library's documented behaviour, the one part of it that decides how
    many requests an invocation of [openai.embeddings.create] sends: a
    request that fails with a connection error, a timeout, a rate limit or
    a server error is sent again, at most [max_retries] more times.  The
    script does not assign [openai.max_retries], so the default of the
    library, 2, is in force.  Checks of the client that raise before
    anything is sent are not modelled. *)
Definition DEFAULT_MAX_RETRIES : nat := 2.

Definition should_retry (e : exn) : bool :=
  match e with
  | APIConnectionError | APITimeoutError | RateLimitError | InternalServerError => true
  | _ => false
  end.

(** The service alone: the answer to the n-th request put on the wire. *)
Definition Service (float : Type) : Type := nat → Request → Outcome float.

(** One invocation: the outcome and the number of requests sent. *)
Fixpoint send {float : Type} (service : Service float) (req : Request)
    (attempt retries_left : nat) : Outcome float * nat :=
  match service attempt req with
  | Returns r => (Returns r, 1%nat)
  | Raises e =>
      match retries_left with
      | S k =>
          if should_retry e then
            let '(o, n) := send service req (S attempt) k in (o, S n)
          else (Raises e, 1%nat)
      | O => (Raises e, 1%nat)
      end
  end.

Definition client {float : Type} (service : Service float) : Remote float :=
  λ _ req, (send service req 0 DEFAULT_MAX_RETRIES).1.

(** The requests put on the wire by the invocations logged in [w]. *)
Definition outbound_requests {float : Type} (service : Service float) (w : World) : nat :=
  sum_list ((λ req, (send service req 0 DEFAULT_MAX_RETRIES).2) <$> calls w).

(** ** Concrete runs

    Floats of integral value, printed the way Python prints them (below
    1e16), and three clients: one that answers with two entries, one that
    answers with an empty list, and one whose first invocation raises and
    whose later invocations would return. *)
Definition repr_integral (z : Z) : string :=
  NilZero.string_of_int (Z.to_int z) +:+ ".0".

Definition sample_response : CreateEmbeddingResponse Z :=
  mkResponse [mkEmbedding [1; -2; 30]; mkEmbedding [7]].

Definition other_response : CreateEmbeddingResponse Z :=
  mkResponse [mkEmbedding [1; -2; 30]; mkEmbedding [8; 9]; mkEmbedding []].

Definition remote_ok : Remote Z := λ _ _, Returns sample_response.

Definition remote_other : Remote Z := λ _ _, Returns other_response.

Definition remote_empty : Remote Z := λ _ _, Returns (mkResponse []).

Definition remote_flaky : Remote Z := λ n _,
  match n with
  | O => Raises APIConnectionError
  | S _ => Returns sample_response
  end.

(** A service whose first request fails and whose second is answered, and
    one that cannot be reached at all. *)
Definition service_flaky : Service Z := λ n _,
  match n with
  | O => Raises APIConnectionError
  | S _ => Returns sample_response
  end.

Definition service_down : Service Z := λ _ _, Raises APIConnectionError.

(** A service whose first entry carries an empty vector. *)
Definition remote_blank : Remote Z := λ _ _,
  Returns (mkResponse [mkEmbedding []; mkEmbedding [5]]).

(** The names of the module attributes that lines 4-7 assign. *)
Definition config_keys : list string :=
  ["api_type"; "api_key"; "azure_endpoint"; "api_version"].

(** A module state in which the import left other values behind. *)
Definition stale_attrs : gmap string string :=
  <["api_type":="open_ai"]> (<["api_key":="sk-from-environment"]> (<["organization":="org-1"]> ∅)).

Definition fresh_attrs : gmap string string := <["organization":="org-1"]> ∅.

(** ** The run, statement by statement *)

Section Run.
Context {float : Type}.
Variable repr_float : float → string.
Implicit Types (remote : Remote float) (L : Literals) (att : gmap string string).

Lemma configure_spec L att :
  configure L (start att) = (Ok (), mkWorld (configured L att) (config_writes L)).
Proof. reflexivity. Qed.

Lemma request_spec remote L att :
  request remote L (mkWorld (configured L att) (config_writes L)) =
    let w := mkWorld (configured L att) (config_writes L ++ [ECall (the_request L att)]) in
    match remote 0%nat (the_request L att) with
    | Returns r => (Ok r, w)
    | Raises e => (Raise e, w)
    end.
Proof. reflexivity. Qed.

Lemma extract_nil (r : CreateEmbeddingResponse float) w :
  data r = [] → extract r w = (Raise IndexError, w).
Proof. intros E. unfold extract. rewrite E. reflexivity. Qed.

Lemma extract_cons (r : CreateEmbeddingResponse float) e rest w :
  data r = e :: rest → extract r w = (Ok (embedding e), w).
Proof. intros E. unfold extract. rewrite E. reflexivity. Qed.

(** The complete behaviour of a run, by cases on what the service does. *)
Lemma run_spec remote L att :
  run repr_float remote L att =
    let req := the_request L att in
    let w := mkWorld (configured L att) (config_writes L ++ [ECall req]) in
    match remote 0%nat req with
    | Raises e => (Raise e, w)
    | Returns r =>
        match data r with
        | [] => (Raise IndexError, w)
        | e :: _ =>
            (Ok (), mkWorld (configured L att)
               (config_writes L ++
                 [ECall req; EPrint (str_list repr_float (embedding e))]))
        end
    end.
Proof.
  unfold run, script.
  unfold mbind at 1, M_bind at 1. rewrite configure_spec.
  unfold mbind at 1, M_bind at 1. rewrite request_spec. cbv zeta.
  destruct (remote 0%nat (the_request L att)) as [r|e]; [|reflexivity].
  unfold mbind, M_bind.
  destruct (data r) as [|e rest] eqn:E.
  - rewrite (extract_nil r _ E). reflexivity.
  - rewrite (extract_cons r e rest _ E). reflexivity.
Qed.

End Run.

(** ** Counting line ends *)

Lemma count_newlines_app (s t : string) :
  count_newlines (s +:+ t) = (count_newlines s + count_newlines t)%nat.
Proof. induction s as [|c s IH]; simpl; [reflexivity|]. rewrite IH. lia. Qed.

Lemma count_newlines_concat (sep : string) (l : list string) :
  count_newlines sep = 0%nat →
  Forall (λ s, count_newlines s = 0%nat) l →
  count_newlines (String.concat sep l) = 0%nat.
Proof.
  intros Hsep Hl. induction Hl as [|s l Hs Hl IH]; [reflexivity|].
  destruct l as [|s' l]; [exact Hs|].
  change (String.concat sep (s :: s' :: l))
    with (s +:+ sep +:+ String.concat sep (s' :: l)).
  rewrite !count_newlines_app, Hs, Hsep, IH. reflexivity.
Qed.

Lemma count_newlines_str_list {float : Type} (repr_float : float → string) l :
  (∀ f, count_newlines (repr_float f) = 0%nat) →
  count_newlines (str_list repr_float l) = 0%nat.
Proof.
  intros H. unfold str_list. rewrite !count_newlines_app.
  rewrite count_newlines_concat; [reflexivity..|].
  apply List.Forall_forall. intros s Hs.
  apply List.in_map_iff in Hs as (f & <- & _). apply H.
Qed.

Lemma count_newlines_uint (d : Decimal.uint) :
  count_newlines (NilEmpty.string_of_uint d) = 0%nat.
Proof. induction d; simpl; assumption || reflexivity. Qed.

Lemma repr_integral_one_line (z : Z) : count_newlines (repr_integral z) = 0%nat.
Proof.
  unfold repr_integral. rewrite count_newlines_app.
  assert (∀ d, count_newlines (NilZero.string_of_uint d) = 0%nat) as Hu.
  { intros d. pose proof (count_newlines_uint d). destruct d; assumption || reflexivity. }
  destruct (Z.to_int z); simpl; rewrite Hu; reflexivity.
Qed.

(** The source, run against a service that answers with two entries. *)
Example main_sample :
  let (res, w) := main repr_integral remote_ok (start ∅) in
  res = Ok () ∧ stdout w = "[1.0, -2.0, 30.0]" +:+ newline ∧
  (req_input <$> calls w) = [["Mountains are beautiful in the fall."]] ∧
  (req_model <$> calls w) = ["ada-embedding-deployment"].
Proof. vm_compute. repeat split. Qed.

(** ** Properties of the script *)

Section Properties.
Context {float : Type}.
Variable repr_float : float → string.
Implicit Types (remote : Remote float) (L : Literals) (att : gmap string string).

(** C1. When the call succeeds and the result list of the response has at
    least one entry, the run ends normally and the one text it prints is
    exactly [str] of the [embedding] field of entry 0; standard output
    holds that text and the line end that [print] appends. *)
Theorem prints_first_embedding remote L att r e rest :
  remote 0%nat (the_request L att) = Returns r →
  data r = e :: rest →
  (run repr_float remote L att).1 = Ok () ∧
  printed (run repr_float remote L att).2 = [str_list repr_float (embedding e)] ∧
  stdout (run repr_float remote L att).2
    = str_list repr_float (embedding e) +:+ newline.
Proof.
  intros Hr Hd. rewrite run_spec. cbv zeta. rewrite Hr, Hd. repeat split.
Qed.

(** C2. When the result list of the response is empty, the run fails with
    [IndexError] and nothing is written to standard output. *)
Theorem empty_data_raises_IndexError remote L att r :
  remote 0%nat (the_request L att) = Returns r →
  data r = [] →
  (run repr_float remote L att).1 = Raise IndexError ∧
  stdout (run repr_float remote L att).2 = "" ∧
  printed (run repr_float remote L att).2 = [].
Proof.
  intros Hr Hd. rewrite run_spec. cbv zeta. rewrite Hr, Hd.
  repeat split.
Qed.

(** C3. Whatever the text literal is, a run sends one request, and its
    input is a list of exactly one string, the text literal. *)
Theorem request_has_one_input remote L t att :
  ∃ req,
    calls (run repr_float remote (set_text t L) att).2 = [req] ∧
    req_input req = [t] ∧
    length (req_input req) = 1%nat.
Proof.
  exists (the_request (set_text t L) att). rewrite run_spec. cbv zeta.
  split; [|split; reflexivity].
  destruct (remote _ _) as [r|e]; [destruct (data r)|]; reflexivity.
Qed.

(** C4. Two runs whose literals differ only in the model literal send
    requests that differ only in the model argument: the module
    attributes ([api_type], [api_key], [azure_endpoint], [api_version])
    and the input list are the same, and each run sends one request. *)
Theorem model_literal_changes_only_model remote remote' L m att :
  ∃ req,
    calls (run repr_float remote L att).2 = [req] ∧
    req_model req = model L ∧
    calls (run repr_float remote' (set_model m L) att).2
      = [mkRequest (req_attrs req) (req_input req) m].
Proof.
  exists (the_request L att). rewrite !run_spec. cbv zeta.
  split; [|split; [reflexivity|]].
  - destruct (remote _ _) as [r|e]; [destruct (data r)|]; reflexivity.
  - destruct (remote' _ _) as [r|e]; [destruct (data r)|]; reflexivity.
Qed.

(** C5, as amended. When the script's invocation of
    [openai.embeddings.create] raises, the script has invoked it exactly
    once, the invocation is the last effect of the run, and the exception
    ends the process (status 1): the script itself makes no second
    invocation, whatever a second one would have returned.  How many
    requests the client sent inside that invocation is not part of the
    statement: see [transient_failure_is_retried]. *)
Theorem failed_call_is_not_retried remote L att e :
  remote 0%nat (the_request L att) = Raises e →
  (run repr_float remote L att).1 = Raise e ∧
  exit_status (run repr_float remote L att).1 = 1 ∧
  calls (run repr_float remote L att).2 = [the_request L att] ∧
  last (trace (run repr_float remote L att).2) = Some (ECall (the_request L att)).
Proof.
  intros Hr. rewrite run_spec. cbv zeta. rewrite Hr. repeat split.
Qed.

(** C6. Every failure (the call raises, for whatever reason, or the
    response has an empty result list) reaches the top level as the very
    exception that was raised, ends the process with status 1, and leaves
    standard output empty: the only outside effect is the call. *)
Theorem failures_propagate_uncaught remote L att e :
  fails_with (remote 0%nat (the_request L att)) e →
  (run repr_float remote L att).1 = Raise e ∧
  exit_status (run repr_float remote L att).1 = 1 ∧
  stdout (run repr_float remote L att).2 = "" ∧
  io (run repr_float remote L att).2 = [ECall (the_request L att)].
Proof.
  intros Hf. rewrite run_spec. cbv zeta.
  inversion Hf as [e' Ho|r Hd Ho]; subst.
  - repeat split.
  - rewrite Hd. repeat split.
Qed.

(** C7. The configuration is written by the first four statements, each
    attribute once and for any values of the literals (none is checked:
    the statements always succeed and the call is always reached); no
    later statement changes the module attributes, so the request and the
    end of the run see exactly what was configured. *)
Theorem configuration_set_once_never_validated remote L att :
  configure L (start att) = (Ok (), mkWorld (configured L att) (config_writes L)) ∧
  (∀ w, attrs (request remote L w).2 = attrs w) ∧
  (∀ (r : CreateEmbeddingResponse float) w, attrs (extract r w).2 = attrs w) ∧
  (∀ s w, attrs (print s w).2 = attrs w) ∧
  writes (run repr_float remote L att).2
    = [("api_type", "azure"); ("api_key", api_key L);
       ("azure_endpoint", azure_endpoint L); ("api_version", "2023-05-15")] ∧
  (∃ rest, trace (run repr_float remote L att).2
             = config_writes L ++ ECall (the_request L att) :: rest) ∧
  req_attrs (the_request L att) = configured L att ∧
  attrs (run repr_float remote L att).2 = configured L att.
Proof.
  split; [reflexivity|]. split.
  { intros w. unfold request, embeddings_create.
    destruct (remote _ _); reflexivity. }
  split.
  { intros r w. unfold extract. destruct (data r); reflexivity. }
  split; [reflexivity|].
  rewrite run_spec. cbv zeta.
  destruct (remote _ _) as [r|e]; [destruct (data r)|];
    (split; [reflexivity|]); (split; [eexists; reflexivity|]); split; reflexivity.
Qed.

(** C8, as amended. The effects of the statements of the script that are
    visible outside the process are: one invocation of
    [openai.embeddings.create], and then, if and only if the run succeeds,
    one write to standard output, which is the text of the first embedding
    closed by a line end and is a single line as long as [repr] of a float
    has no line end in it.  The script reads and writes nothing else.  The
    number of requests the client sends inside the invocation (see
    [outbound_requests_not_one]) and what the interpreter reports on
    standard error for an uncaught exception are not part of the
    statement. *)
Theorem side_effects_one_call_one_line remote L att :
  (∀ f, count_newlines (repr_float f) = 0%nat) →
  (∃ e, (run repr_float remote L att).1 = Raise e ∧
        io (run repr_float remote L att).2 = [ECall (the_request L att)] ∧
        stdout (run repr_float remote L att).2 = "") ∨
  (∃ r e rest,
        remote 0%nat (the_request L att) = Returns r ∧ data r = e :: rest ∧
        (run repr_float remote L att).1 = Ok () ∧
        io (run repr_float remote L att).2
          = [ECall (the_request L att);
             EPrint (str_list repr_float (embedding e))] ∧
        stdout (run repr_float remote L att).2
          = str_list repr_float (embedding e) +:+ newline ∧
        count_newlines (stdout (run repr_float remote L att).2) = 1%nat).
Proof.
  intros Hrepr. rewrite run_spec. cbv zeta.
  destruct (remote _ _) as [r|e] eqn:Hr.
  - destruct (data r) as [|e rest] eqn:Hd.
    + left. exists IndexError. repeat split.
    + right. exists r, e, rest.
      do 5 (split; [reflexivity || assumption|]).
      change (stdout _) with (str_list repr_float (embedding e) +:+ newline).
      rewrite count_newlines_app, count_newlines_str_list by assumption.
      reflexivity.
  - left. exists e. repeat split.
Qed.

(** C9. Every request of a run is sent with [api_type] equal to "azure"
    and [api_version] equal to "2023-05-15", with the credential and the
    endpoint that were configured, and names the configured model. *)
Theorem request_carries_configuration remote L att :
  ∃ req,
    calls (run repr_float remote L att).2 = [req] ∧
    req_attrs req !! "api_type" = Some "azure" ∧
    req_attrs req !! "api_version" = Some "2023-05-15" ∧
    req_attrs req !! "api_key" = Some (api_key L) ∧
    req_attrs req !! "azure_endpoint" = Some (azure_endpoint L) ∧
    req_model req = model L.
Proof.
  exists (the_request L att). rewrite run_spec. cbv zeta. split.
  { destruct (remote _ _) as [r|e]; [destruct (data r)|]; reflexivity. }
  unfold the_request, configured; simpl.
  repeat split; by simplify_map_eq.
Qed.

(** C10. The output of a run is a function of the answer of the service
    alone: two runs (whatever their literals and the initial state of the
    module) that get the same answer write the same text and end the same
    way, and so do two runs whose answers agree on the embedding of entry
    0 and differ in later entries. *)
Theorem output_depends_only_on_first_entry remote remote' L L' att att' :
  (remote 0%nat (the_request L att) = remote' 0%nat (the_request L' att') ∨
   view (remote 0%nat (the_request L att))
     = view (remote' 0%nat (the_request L' att'))) →
  stdout (run repr_float remote L att).2 = stdout (run repr_float remote' L' att').2 ∧
  (run repr_float remote L att).1 = (run repr_float remote' L' att').1.
Proof.
  intros H.
  assert (view (remote 0%nat (the_request L att))
            = view (remote' 0%nat (the_request L' att'))) as Hv
    by (destruct H as [->|H]; [reflexivity|exact H]).
  clear H. rewrite !run_spec. cbv zeta.
  destruct (remote _ _) as [r|e], (remote' _ _) as [r'|e']; simpl in Hv;
    try discriminate.
  - destruct (data r) as [|x ?], (data r') as [|x' ?]; simpl in Hv;
      try discriminate; [split; reflexivity|].
    injection Hv as Hv. split; [|reflexivity].
    change (stdout _) with (str_list repr_float (embedding x) +:+ newline) at 1.
    rewrite Hv. reflexivity.
  - injection Hv as ->. split; reflexivity.
Qed.

End Properties.

(** ** The properties at concrete runs of the source *)

Lemma prints_first_embedding_witness :
  remote_ok 0%nat (the_request source_literals ∅) = Returns sample_response ∧
  data sample_response = mkEmbedding [1; -2; 30] :: [mkEmbedding [7]] ∧
  (run repr_integral remote_ok source_literals ∅).1 = Ok () ∧
  printed (run repr_integral remote_ok source_literals ∅).2 = ["[1.0, -2.0, 30.0]"] ∧
  stdout (run repr_integral remote_ok source_literals ∅).2
    = "[1.0, -2.0, 30.0]" +:+ newline.
Proof.
  split; [reflexivity|]. split; [reflexivity|].
  apply (prints_first_embedding repr_integral remote_ok source_literals ∅
           sample_response (mkEmbedding [1; -2; 30]) [mkEmbedding [7]]);
    reflexivity.
Defined.

Lemma empty_data_raises_IndexError_witness :
  remote_empty 0%nat (the_request source_literals ∅) = Returns (mkResponse []) ∧
  data (mkResponse (float:=Z) []) = [] ∧
  (run repr_integral remote_empty source_literals ∅).1 = Raise IndexError ∧
  stdout (run repr_integral remote_empty source_literals ∅).2 = "" ∧
  printed (run repr_integral remote_empty source_literals ∅).2 = [].
Proof.
  split; [reflexivity|]. split; [reflexivity|].
  apply (empty_data_raises_IndexError repr_integral remote_empty source_literals ∅
           (mkResponse [])); reflexivity.
Defined.

Lemma failed_call_is_not_retried_witness :
  remote_flaky 0%nat (the_request source_literals ∅) = Raises APIConnectionError ∧
  remote_flaky 1%nat (the_request source_literals ∅) = Returns sample_response ∧
  (run repr_integral remote_flaky source_literals ∅).1 = Raise APIConnectionError ∧
  exit_status (run repr_integral remote_flaky source_literals ∅).1 = 1 ∧
  calls (run repr_integral remote_flaky source_literals ∅).2
    = [the_request source_literals ∅] ∧
  last (trace (run repr_integral remote_flaky source_literals ∅).2)
    = Some (ECall (the_request source_literals ∅)).
Proof.
  split; [reflexivity|]. split; [reflexivity|].
  apply (failed_call_is_not_retried repr_integral remote_flaky source_literals ∅
           APIConnectionError); reflexivity.
Defined.

Lemma failures_propagate_uncaught_witness :
  fails_with (remote_empty 0%nat (the_request source_literals ∅)) IndexError ∧
  (run repr_integral remote_empty source_literals ∅).1 = Raise IndexError ∧
  exit_status (run repr_integral remote_empty source_literals ∅).1 = 1 ∧
  stdout (run repr_integral remote_empty source_literals ∅).2 = "" ∧
  io (run repr_integral remote_empty source_literals ∅).2
    = [ECall (the_request source_literals ∅)].
Proof.
  assert (fails_with (remote_empty 0%nat (the_request source_literals ∅)) IndexError)
    as H by (apply empty_data; reflexivity).
  split; [exact H|].
  apply (failures_propagate_uncaught repr_integral remote_empty source_literals ∅
           IndexError H).
Defined.

Lemma side_effects_one_call_one_line_witness :
  (∀ z, count_newlines (repr_integral z) = 0%nat) ∧
  ((∃ e, (run repr_integral remote_ok source_literals ∅).1 = Raise e ∧
         io (run repr_integral remote_ok source_literals ∅).2
           = [ECall (the_request source_literals ∅)] ∧
         stdout (run repr_integral remote_ok source_literals ∅).2 = "") ∨
   (∃ r e rest,
         remote_ok 0%nat (the_request source_literals ∅) = Returns r ∧
         data r = e :: rest ∧
         (run repr_integral remote_ok source_literals ∅).1 = Ok () ∧
         io (run repr_integral remote_ok source_literals ∅).2
           = [ECall (the_request source_literals ∅);
              EPrint (str_list repr_integral (embedding e))] ∧
         stdout (run repr_integral remote_ok source_literals ∅).2
           = str_list repr_integral (embedding e) +:+ newline ∧
         count_newlines (stdout (run repr_integral remote_ok source_literals ∅).2)
           = 1%nat)).
Proof.
  split; [exact repr_integral_one_line|].
  apply (side_effects_one_call_one_line repr_integral remote_ok source_literals ∅
           repr_integral_one_line).
Defined.

Lemma output_depends_only_on_first_entry_witness :
  sample_response ≠ other_response ∧
  view (remote_ok 0%nat (the_request source_literals ∅))
    = view (remote_other 0%nat
              (the_request (set_model "other-deployment" source_literals)
                 {["api_type" := "open_ai"]})) ∧
  stdout (run repr_integral remote_ok source_literals ∅).2
    = stdout (run repr_integral remote_other
                (set_model "other-deployment" source_literals)
                {["api_type" := "open_ai"]}).2 ∧
  (run repr_integral remote_ok source_literals ∅).1
    = (run repr_integral remote_other
         (set_model "other-deployment" source_literals)
         {["api_type" := "open_ai"]}).1.
Proof.
  split; [discriminate|]. split; [reflexivity|].
  apply (output_depends_only_on_first_entry repr_integral remote_ok remote_other
           source_literals (set_model "other-deployment" source_literals)
           ∅ {["api_type" := "open_ai"]}).
  right. reflexivity.
Defined.

(** ** Further properties of the script *)

Lemma configured_lookup_other L att k :
  k ∉ config_keys → configured L att !! k = att !! k.
Proof.
  unfold config_keys, configured. intros Hk.
  repeat (apply not_elem_of_cons in Hk as [? Hk]).
  rewrite !lookup_insert_ne by congruence. reflexivity.
Qed.

Lemma configured_lookup_key L att att' k :
  k ∈ config_keys → configured L att !! k = configured L att' !! k.
Proof.
  unfold config_keys, configured. intros Hk.
  repeat (apply elem_of_cons in Hk as [->|Hk]);
    [by simplify_map_eq.. | by apply elem_of_nil in Hk].
Qed.

Lemma calls_run {float : Type} (repr_float : float → string)
    (remote : Remote float) L att :
  calls (run repr_float remote L att).2 = [the_request L att].
Proof.
  rewrite run_spec. cbv zeta.
  destruct (remote _ _) as [r|e]; [destruct (data r)|]; reflexivity.
Qed.

Section Further.
Context {float : Type}.
Variable repr_float : float → string.
Implicit Types (remote : Remote float) (L : Literals) (att : gmap string string).


(** X4. Whatever values the four configured attributes had before the
    script ran are overwritten: two runs that start from module states
    differing only in those four attributes send the same request and are
    the same run, effect by effect. *)
Theorem prior_configuration_is_overwritten remote L att att' :
  (∀ k, k ∉ config_keys → att !! k = att' !! k) →
  the_request L att = the_request L att' ∧
  run repr_float remote L att = run repr_float remote L att'.
Proof.
  intros H.
  assert (configured L att = configured L att') as Hc.
  { apply map_eq. intros k. destruct (decide (k ∈ config_keys)) as [Hk|Hk].
    - by apply configured_lookup_key.
    - rewrite !configured_lookup_other by assumption. by apply H. }
  assert (the_request L att = the_request L att') as Hq
    by (unfold the_request; by rewrite Hc).
  split; [exact Hq|]. rewrite !run_spec. cbv zeta. by rewrite Hq, Hc.
Qed.

(** X5. The length of the vector is not checked: when entry 0 carries an
    empty embedding the run still succeeds, and the line it prints is
    [[]]. *)
Theorem empty_embedding_prints_brackets remote L att r e rest :
  remote 0%nat (the_request L att) = Returns r →
  data r = e :: rest →
  embedding e = [] →
  (run repr_float remote L att).1 = Ok () ∧
  stdout (run repr_float remote L att).2 = "[]" +:+ newline.
Proof.
  intros Hr Hd He. rewrite run_spec. cbv zeta. rewrite Hr, Hd.
  split; [reflexivity|].
  change (stdout _) with (str_list repr_float (embedding e) +:+ newline).
  by rewrite He.
Qed.

(** X6. The script as it stands in the repository sends its placeholders:
    for every service and every initial module state, the one request of
    [main] carries the credential "YOUR_API_KEY", the endpoint
    "https://YOUR_AZURE_OPENAI_ENDPOINT/", the single input
    "Mountains are beautiful in the fall." and the model
    "ada-embedding-deployment". *)
Theorem main_sends_placeholders remote att :
  ∃ req,
    calls (main repr_float remote (start att)).2 = [req] ∧
    req_attrs req !! "api_key" = Some "YOUR_API_KEY" ∧
    req_attrs req !! "azure_endpoint" = Some "https://YOUR_AZURE_OPENAI_ENDPOINT/" ∧
    req_input req = ["Mountains are beautiful in the fall."] ∧
    req_model req = "ada-embedding-deployment".
Proof.
  exists (the_request source_literals att).
  change (main repr_float remote (start att))
    with (run repr_float remote source_literals att).
  rewrite calls_run. split; [reflexivity|].
  unfold the_request, configured; simpl.
  repeat split; by simplify_map_eq.
Qed.

End Further.


Lemma prior_configuration_is_overwritten_witness :
  (∀ k, k ∉ config_keys → fresh_attrs !! k = stale_attrs !! k) ∧
  fresh_attrs !! "api_key" ≠ stale_attrs !! "api_key" ∧
  the_request source_literals fresh_attrs = the_request source_literals stale_attrs ∧
  run repr_integral remote_ok source_literals fresh_attrs
    = run repr_integral remote_ok source_literals stale_attrs.
Proof.
  assert (∀ k, k ∉ config_keys → fresh_attrs !! k = stale_attrs !! k) as H.
  { unfold config_keys, fresh_attrs, stale_attrs. intros k Hk.
    repeat (apply not_elem_of_cons in Hk as [? Hk]).
    rewrite !(lookup_insert_ne _ "api_type"), !(lookup_insert_ne _ "api_key")
      by congruence.
    reflexivity. }
  split; [exact H|]. split; [by vm_compute|].
  apply (prior_configuration_is_overwritten repr_integral remote_ok
           source_literals fresh_attrs stale_attrs H).
Defined.

Lemma empty_embedding_prints_brackets_witness :
  remote_blank 0%nat (the_request source_literals ∅)
    = Returns (mkResponse [mkEmbedding []; mkEmbedding [5]]) ∧
  data (mkResponse [mkEmbedding (float:=Z) []; mkEmbedding [5]])
    = mkEmbedding [] :: [mkEmbedding [5]] ∧
  embedding (mkEmbedding (float:=Z) []) = [] ∧
  (run repr_integral remote_blank source_literals ∅).1 = Ok () ∧
  stdout (run repr_integral remote_blank source_literals ∅).2 = "[]" +:+ newline.
Proof.
  split; [reflexivity|]. split; [reflexivity|]. split; [reflexivity|].
  apply (empty_embedding_prints_brackets repr_integral remote_blank source_literals ∅
           (mkResponse [mkEmbedding []; mkEmbedding [5]]) (mkEmbedding [])
           [mkEmbedding [5]]); reflexivity.
Defined.

(** ** Requests on the wire

    Counted on the wire, the two statements below fail: the script leaves
    the retry policy of the client at its default, so one invocation can
    send up to three requests. *)

Lemma send_at_most {float : Type} (service : Service float) req attempt k :
  ((send service req attempt k).2 ≤ S k)%nat.
Proof.
  revert attempt. induction k as [|k IH]; intros attempt; simpl.
  - destruct (service attempt req); simpl; lia.
  - destruct (service attempt req) as [r|e]; simpl; [lia|].
    destruct (should_retry e); simpl; [|lia].
    specialize (IH (S attempt)).
    destruct (send service req (S attempt) k) as [o n]. simpl in *. lia.
Qed.

(** C5, as first stated, fails: a run whose first request fails with a
    connection error is not over after one request.  The client sends the
    request again; here the second request is answered and the process
    ends normally, having printed the vector. *)
Lemma transient_failure_is_retried :
  ¬ (∀ (service : Service Z) L att e,
       should_retry e = true →
       service 0%nat (the_request L att) = Raises e →
       outbound_requests service (run repr_integral (client service) L att).2 = 1%nat ∧
       (run repr_integral (client service) L att).1 = Raise e).
Proof.
  intros H.
  destruct (H service_flaky source_literals ∅ APIConnectionError eq_refl eq_refl)
    as [Hn _].
  vm_compute in Hn. discriminate Hn.
Qed.

(** C8, as first stated, fails: the requests a run puts on the wire are
    not always one.  Against a service that cannot be reached the single
    invocation sends three. *)
Lemma outbound_requests_not_one :
  ¬ (∀ (service : Service Z) L att,
       outbound_requests service (run repr_integral (client service) L att).2 = 1%nat).
Proof.
  intros H. specialize (H service_down source_literals ∅).
  vm_compute in H. discriminate H.
Qed.

(** The two runs above, in full. *)
Example flaky_run :
  outbound_requests service_flaky
    (run repr_integral (client service_flaky) source_literals ∅).2 = 2%nat ∧
  (run repr_integral (client service_flaky) source_literals ∅).1 = Ok () ∧
  length (calls (run repr_integral (client service_flaky) source_literals ∅).2) = 1%nat.
Proof. vm_compute. repeat split. Qed.

Example down_run :
  outbound_requests service_down
    (run repr_integral (client service_down) source_literals ∅).2 = 3%nat ∧
  (run repr_integral (client service_down) source_literals ∅).1
    = Raise APIConnectionError ∧
  length (calls (run repr_integral (client service_down) source_literals ∅).2) = 1%nat.
Proof. vm_compute. repeat split. Qed.
